(** * Provider registry of [cli/utils.py]

    The module holds three static tables ([BASE_URLS],
    [SHALLOW_AGENT_OPTIONS], [DEEP_AGENT_OPTIONS]) and three accessors
    ([select_llm_provider], [select_shallow_thinking_agent],
    [select_deep_thinking_agent]) that lowercase a provider key, look it up
    and raise [KeyError] for an unknown key.

    Python values are embedded as follows.
    - [str]: a [string], one [ascii] per code point, so the strings covered
      are those over the code points below U+0100 (Basic Latin and Latin-1
      Supplement).
    - [Dict[str, _]]: a [gmap string _]; a dict display and a dict
      comprehension insert their items from left to right.
    - [List[str]]: a [list string], indexed by a Python integer ([Z]).
    - exceptions: an outcome that is either a returned value or a raised
      exception object, with the exception's argument and its [__cause__].
    - the module's global names: a record that every call reads and hands
      back, so that a call which rebinds nothing is a theorem and not a
      convention. *)

From Stdlib Require Import ZArith NArith Ascii String List.
From stdpp Require Import base decidable option list gmap strings fin_maps.

Local Open Scope string_scope.
Local Open Scope Z_scope.

(** ** [str.lower] *)

Module Str.

(** Code point of a character. *)
Definition ord (c : ascii) : N := N_of_ascii c.

Definition chr (n : N) : ascii := ascii_of_N n.

(** The characters with a lowercase mapping among the first 256 code
    points: [A]-[Z], and the Latin-1 capitals U+00C0-U+00DE without the
    multiplication sign U+00D7. *)
Definition has_lower (c : ascii) : bool :=
  let n := ord c in
  ((65 <=? n) && (n <=? 90))%N
  || ((192 <=? n) && (n <=? 222) && negb (n =? 215))%N.

(** Each of them lies 32 code points below its lowercase form. *)
Definition lower_char (c : ascii) : ascii :=
  if has_lower c then chr (ord c + 32) else c.

(** [s.lower()]: a new string, character by character. *)
Fixpoint lower (s : string) : string :=
  match s with
  | EmptyString => EmptyString
  | String c s' => String (lower_char c) (lower s')
  end.

(** [c.isascii() and c.isupper()] and [c.isascii() and c.islower()]. *)
Definition is_ascii_upper (c : ascii) : bool :=
  ((65 <=? ord c) && (ord c <=? 90))%N.

Definition is_ascii_lower (c : ascii) : bool :=
  ((97 <=? ord c) && (ord c <=? 122))%N.

(** [c1] and [c2] are the same character, or the two cases of one Basic
    Latin letter. *)
Definition same_letter (c1 c2 : ascii) : bool :=
  bool_decide (c1 = c2)
  || (is_ascii_upper c1 && (ord c2 =? ord c1 + 32)%N)
  || (is_ascii_upper c2 && (ord c1 =? ord c2 + 32)%N).

(** [k] spells [s] in some letter-casing: same length, and position by
    position the same letter. *)
Fixpoint recased (k s : string) : bool :=
  match k, s with
  | EmptyString, EmptyString => true
  | String a k', String b s' => same_letter a b && recased k' s'
  | _, _ => false
  end.

(** [s] consists of lowercase Basic Latin letters only. *)
Fixpoint all_ascii_lower (s : string) : bool :=
  match s with
  | EmptyString => true
  | String c s' => is_ascii_lower c && all_ascii_lower s'
  end.

End Str.

Import Str.

(** ** Exceptions, outcomes and the module state *)

(** The two exception classes the module can meet, both subclasses of
    [LookupError] and neither of the other. [arg] is the constructor's
    argument; [cause] is [__cause__], set by [raise ... from exc]. *)
#[warnings="-register-all"]
Inductive exn : Type :=
| KeyError (arg : string) (cause : option exn)
| IndexError (arg : string).

Inductive outcome (A : Type) : Type :=
| Return (v : A)
| Raise (e : exn).

Arguments Return {A} v.
Arguments Raise {A} e.

(** The module's global names, as bound when a function is called. *)
Record globals : Type := Globals {
  g_BASE_URLS : list string;
  g_SHALLOW_AGENT_OPTIONS : gmap string (list string);
  g_DEEP_AGENT_OPTIONS : gmap string (list string)
}.

(** A computation reads the global names, returns or raises, and leaves the
    global names as it bound them. *)
Definition Py (A : Type) : Type := globals → outcome A * globals.

Definition py_ret {A} (v : A) : Py A := λ g, (Return v, g).

Definition py_bind {A B} (f : A → Py B) (m : Py A) : Py B :=
  λ g, match m g with
       | (Return v, g') => f v g'
       | (Raise e, g') => (Raise e, g')
       end.

#[global] Instance Py_ret : MRet Py := @py_ret.
#[global] Instance Py_bind : MBind Py := @py_bind.

(** [raise e]. *)
Definition raise {A} (e : exn) : Py A := λ g, (Raise e, g).

(** Evaluation of a global name. *)
Definition load {A} (name : globals → A) : Py A := λ g, (Return (name g), g).

(** [try: body / except KeyError as exc: handler]. An [IndexError] is not
    an instance of [KeyError] and passes through. *)
Definition try_except_KeyError {A} (body : Py A) (handler : exn → Py A) : Py A :=
  λ g, match body g with
       | (Raise (KeyError arg cause), g') => handler (KeyError arg cause) g'
       | r => r
       end.

(** ** Dicts and lists *)

(** A dict display [{k1: v1, k2: v2, ...}]: items are stored from left to
    right, a later item replacing an earlier one with the same key. *)
Definition dict_display {V} (items : list (string * V)) : gmap string V :=
  foldl (λ d kv, <[kv.1 := kv.2]> d) ∅ items.

(** A dict comprehension [{key(x): value(x) for x in xs}]. *)
Definition dict_comprehension {A V} (key : A → string) (value : A → V)
    (xs : list A) : gmap string V :=
  foldl (λ d x, <[key x := value x]> d) ∅ xs.

(** [k in d]. *)
Definition dict_contains {V} (k : string) (d : gmap string V) : bool :=
  match d !! k with Some _ => true | None => false end.

(** [d[k]]: the value, or [KeyError(k)]. *)
Definition dict_getitem {V} (d : gmap string V) (k : string) : Py V :=
  match d !! k with
  | Some v => mret v
  | None => raise (KeyError k None)
  end.

(** [l[i]]: a negative index counts from the end; an index outside the list
    raises [IndexError]. *)
Definition list_getitem {V} (l : list V) (i : Z) : Py V :=
  let n := Z.of_nat (length l) in
  let j := if i <? 0 then i + n else i in
  if (j <? 0) || (n <=? j) then raise (IndexError "list index out of range")
  else match l !! Z.to_nat j with
       | Some v => mret v
       | None => raise (IndexError "list index out of range")
       end.

(** ** The module *)

Definition BASE_URLS : list string :=
  ["OpenAI"; "Anthropic"; "DeepSeek"].

Definition SHALLOW_AGENT_OPTIONS : gmap string (list string) :=
  dict_display
    [("openai", ["gpt-4o-mini"]);
     ("anthropic", ["claude-3-haiku"]);
     ("deepseek", ["deepseek-chat"])].

Definition DEEP_AGENT_OPTIONS : gmap string (list string) :=
  dict_display
    [("openai", ["gpt-4o"]);
     ("anthropic", ["claude-3-opus"]);
     ("deepseek", ["deepseek-reasoner"])].

(** The global names after the module body has run. *)
Definition module_globals : globals :=
  {| g_BASE_URLS := BASE_URLS;
     g_SHALLOW_AGENT_OPTIONS := SHALLOW_AGENT_OPTIONS;
     g_DEEP_AGENT_OPTIONS := DEEP_AGENT_OPTIONS |}.

Definition select_llm_provider (provider_key : string) : Py string :=
  names ← load g_BASE_URLS;
  let providers := dict_comprehension lower (λ name, name) names in
  let key := lower provider_key in
  if negb (dict_contains key providers)
  then raise (KeyError ("Unknown LLM provider: " +:+ provider_key) None)
  else dict_getitem providers key.

Definition select_shallow_thinking_agent (provider_key : string) : Py string :=
  let key := lower provider_key in
  try_except_KeyError
    (options ← load g_SHALLOW_AGENT_OPTIONS;
     models ← dict_getitem options key;
     list_getitem models 0)
    (λ exc, raise (KeyError ("Unknown provider for shallow agent: " +:+ provider_key)
                            (Some exc))).

Definition select_deep_thinking_agent (provider_key : string) : Py string :=
  let key := lower provider_key in
  try_except_KeyError
    (options ← load g_DEEP_AGENT_OPTIONS;
     models ← dict_getitem options key;
     list_getitem models 0)
    (λ exc, raise (KeyError ("Unknown provider for deep agent: " +:+ provider_key)
                            (Some exc))).

(** The outcome of a call made in the module as loaded. *)
Definition call {A} (m : Py A) : outcome A := (m module_globals).1.

(** ** Vocabulary of the specification *)

(** The three accessors, named after the table each one searches. *)
Inductive operation : Type := ProviderName | ShallowAgent | DeepAgent.

Definition select (o : operation) : string → Py string :=
  match o with
  | ProviderName => select_llm_provider
  | ShallowAgent => select_shallow_thinking_agent
  | DeepAgent => select_deep_thinking_agent
  end.

(** The keys an accessor searches: the lowercased provider names for
    [select_llm_provider], the keys of its table for the other two. *)
Definition searched_keys (o : operation) : gset string :=
  match o with
  | ProviderName => list_to_set (lower <$> BASE_URLS)
  | ShallowAgent => dom SHALLOW_AGENT_OPTIONS
  | DeepAgent => dom DEEP_AGENT_OPTIONS
  end.

(** The UnknownKey failure of an accessor called with [provider_key]: a
    [KeyError] whose message ends with the argument as it was passed. The
    agent accessors chain the dict's own [KeyError], whose argument is the
    lowercased key. *)
Definition UnknownKey (o : operation) (provider_key : string) : exn :=
  match o with
  | ProviderName =>
      KeyError ("Unknown LLM provider: " +:+ provider_key) None
  | ShallowAgent =>
      KeyError ("Unknown provider for shallow agent: " +:+ provider_key)
               (Some (KeyError (lower provider_key) None))
  | DeepAgent =>
      KeyError ("Unknown provider for deep agent: " +:+ provider_key)
               (Some (KeyError (lower provider_key) None))
  end.

(** The supported provider keys. *)
Definition supported_keys : gset string :=
  {[ "openai"; "anthropic"; "deepseek" ]}.

(** The canonical display name documented for each supported key. *)
Definition provider_names : list (string * string) :=
  [("openai", "OpenAI"); ("anthropic", "Anthropic"); ("deepseek", "DeepSeek")].

(** The shallow and the deep model documented for each supported key. *)
Definition default_agents : list (string * (string * string)) :=
  [("openai", ("gpt-4o-mini", "gpt-4o"));
   ("anthropic", ("claude-3-haiku", "claude-3-opus"));
   ("deepseek", ("deepseek-chat", "deepseek-reasoner"))].

(** Two calls of one computation, the second made in the state the first
    left: both outcomes and the final state. *)
Definition twice {A} (m : Py A) (g : globals) : outcome A * outcome A * globals :=
  let (r1, g1) := m g in
  let (r2, g2) := m g1 in
  (r1, r2, g2).

Definition returns {A} (r : outcome A) : Prop := ∃ v, r = Return v.

(** What a lowercased key resolves to: the provider name stored under it,
    or the first model of the sequence stored under it. *)
Definition resolve (o : operation) (key : string) : option string :=
  match o with
  | ProviderName => dict_comprehension lower (λ name, name) BASE_URLS !! key
  | ShallowAgent => SHALLOW_AGENT_OPTIONS !! key ≫= head
  | DeepAgent => DEEP_AGENT_OPTIONS !! key ≫= head
  end.

(** Each accessor, run in any binding [g] of the global names, written out
    as a function of the one lookup it makes. *)

Definition provider_result (names : list string) (provider_key : string)
    : outcome string :=
  match dict_comprehension lower (λ name, name) names !! lower provider_key with
  | Some name => Return name
  | None => Raise (UnknownKey ProviderName provider_key)
  end.

Definition agent_result (o : operation) (options : gmap string (list string))
    (provider_key : string) : outcome string :=
  match options !! lower provider_key with
  | Some (model :: _) => Return model
  | Some [] => Raise (IndexError "list index out of range")
  | None => Raise (UnknownKey o provider_key)
  end.

(** The two agent accessors, by tier, and the table each one reads. *)
Inductive tier : Type := Shallow | Deep.

Definition select_agent (t : tier) : string → Py string :=
  match t with
  | Shallow => select_shallow_thinking_agent
  | Deep => select_deep_thinking_agent
  end.

Definition agent_options (t : tier) (g : globals) : gmap string (list string) :=
  match t with
  | Shallow => g_SHALLOW_AGENT_OPTIONS g
  | Deep => g_DEEP_AGENT_OPTIONS g
  end.

Definition tier_operation (t : tier) : operation :=
  match t with
  | Shallow => ShallowAgent
  | Deep => DeepAgent
  end.

(** * Properties *)

(** Splits [x ∈ [a; b; ...]] into one goal per element. *)
Ltac list_cases H :=
  repeat (apply elem_of_cons in H as [H|H]);
  [..|by apply elem_of_nil in H]; simplify_eq.

(** ** Lowercasing *)

Lemma ord_chr (n : N) : (n < 256)%N → ord (chr n) = n.
Proof. apply N_ascii_embedding. Qed.

Lemma chr_ord (c : ascii) : chr (ord c) = c.
Proof. apply ascii_N_embedding. Qed.

Lemma ord_lt_256 (c : ascii) : (ord c < 256)%N.
Proof. apply N_ascii_bounded. Qed.

(** A lowercase form has no lowercase mapping of its own. *)
Lemma has_lower_lower_char (c : ascii) : has_lower (lower_char c) = false.
Proof.
  unfold lower_char. destruct (has_lower c) eqn:Hc; [|done].
  unfold has_lower in *.
  assert (65 ≤ ord c ≤ 90 ∨ 192 ≤ ord c ≤ 222)%N as Hrange.
  { apply orb_true_iff in Hc as [Hc|Hc];
      rewrite ?andb_true_iff, ?N.leb_le in Hc; lia. }
  rewrite ord_chr by lia.
  apply orb_false_iff; split; apply not_true_is_false; intros Hn;
    rewrite ?andb_true_iff, ?N.leb_le in Hn; lia.
Qed.

Lemma lower_char_idemp (c : ascii) : lower_char (lower_char c) = lower_char c.
Proof. unfold lower_char at 1. by rewrite has_lower_lower_char. Qed.

Lemma lower_idemp (s : string) : lower (lower s) = lower s.
Proof.
  induction s as [|c s IH]; [done|].
  cbn [lower]. by rewrite lower_char_idemp, IH.
Qed.


Lemma lower_char_upper (a b : ascii) :
  is_ascii_upper a = true → (ord b = ord a + 32)%N →
  lower_char a = b ∧ lower_char b = b.
Proof.
  unfold is_ascii_upper, lower_char, has_lower. intros Ha Hb.
  apply andb_true_iff in Ha as [Ha1 Ha2]. rewrite Ha1, Ha2. cbn [andb orb].
  split; [by rewrite <- Hb, chr_ord|].
  rewrite Hb. apply N.leb_le in Ha1, Ha2.
  replace (_ || _) with false; [done|].
  symmetry. apply orb_false_iff; split; apply not_true_is_false; intros Hn;
    rewrite ?andb_true_iff, ?N.leb_le in Hn; lia.
Qed.

Lemma same_letter_lower_char (a b : ascii) :
  same_letter a b = true → lower_char a = lower_char b.
Proof.
  unfold same_letter. rewrite !orb_true_iff, !andb_true_iff, !N.eqb_eq.
  intros [[Heq|[Ha Hb]]|[Hb Ha]].
  - by apply bool_decide_eq_true in Heq as ->.
  - by destruct (lower_char_upper a b Ha Hb) as [-> ->].
  - by destruct (lower_char_upper b a Hb Ha) as [-> ->].
Qed.

(** Two spellings of one word in different letter-casings have the same
    lowercase form. *)
Lemma recased_lower (k s : string) : recased k s = true → lower k = lower s.
Proof.
  revert s. induction k as [|a k IH]; intros [|b s]; cbn [recased lower];
    try done.
  intros [Hab Hks]%andb_true_iff.
  by rewrite (same_letter_lower_char a b Hab), (IH s Hks).
Qed.

Lemma lower_char_same_letter (a b : ascii) :
  is_ascii_lower b = true → lower_char a = b → same_letter a b = true.
Proof.
  unfold is_ascii_lower, lower_char, same_letter, is_ascii_upper.
  intros [Hb1 Hb2]%andb_true_iff. apply N.leb_le in Hb1, Hb2.
  destruct (has_lower a) eqn:Ha; intros <-.
  - assert (65 ≤ ord a ≤ 90 ∨ 192 ≤ ord a ≤ 222)%N as Hrange.
    { unfold has_lower in Ha. apply orb_true_iff in Ha as [Ha|Ha];
        rewrite ?andb_true_iff, ?N.leb_le in Ha; lia. }
    rewrite ord_chr in * by lia.
    rewrite !orb_true_iff, !andb_true_iff, !N.leb_le, !N.eqb_eq.
    left; right. lia.
  - by rewrite bool_decide_eq_true_2.
Qed.

(** For a word of lowercase Basic Latin letters, its spellings in other
    letter-casings are exactly the strings that lowercase to it. *)
Lemma recased_iff_lower (k s : string) :
  all_ascii_lower s = true → recased k s = true ↔ lower k = s.
Proof.
  revert k. induction s as [|b s IH]; intros [|a k] Hs; cbn; try done.
  apply andb_true_iff in Hs as [Hb Hs]. rewrite andb_true_iff, (IH k Hs).
  split.
  - intros [Hab ->]. f_equal.
    apply same_letter_lower_char in Hab as ->.
    unfold lower_char, has_lower. unfold is_ascii_lower in Hb.
    apply andb_true_iff in Hb as [Hb1 Hb2]. apply N.leb_le in Hb1, Hb2.
    replace (_ || _) with false; [done|].
    symmetry. apply orb_false_iff; split; apply not_true_is_false; intros Hn;
      rewrite ?andb_true_iff, ?N.leb_le in Hn; lia.
  - intros [= Hab Hk]. split; [|done]. by apply lower_char_same_letter.
Qed.

(** ** Dicts built item by item *)

Section dict_facts.
Context {A V : Type} (key : A → string) (value : A → V).

Lemma foldl_store_dom (xs : list A) (d : gmap string V) :
  dom (foldl (λ d x, <[key x := value x]> d) d xs) = dom d ∪ list_to_set (key <$> xs).
Proof.
  revert d. induction xs as [|x xs IH]; intros d; cbn [foldl].
  - by rewrite fmap_nil, list_to_set_nil, (right_id_L ∅ (∪)).
  - rewrite IH.
    rewrite dom_insert_L, fmap_cons, list_to_set_cons.
    by rewrite (comm_L (∪) {[key x]} (dom d)), (assoc_L (∪)).
Qed.

(** Whatever is found under a key was stored by an item with that key, or
    was there before. *)
Lemma foldl_store_lookup_Some (xs : list A) (d : gmap string V) k v :
  foldl (λ d x, <[key x := value x]> d) d xs !! k = Some v →
  d !! k = Some v ∨ ∃ x, x ∈ xs ∧ key x = k ∧ value x = v.
Proof.
  revert d. induction xs as [|x xs IH]; intros d; cbn [foldl]; [by left|].
  intros [Hd|(y & Hy & Hk & Hv)]%IH.
  - destruct (decide (key x = k)) as [<-|Hne].
    + rewrite lookup_insert_eq in Hd. injection Hd as <-.
      right. exists x. split; [left|done].
    + rewrite lookup_insert_ne in Hd by done. by left.
  - right. exists y. split; [by right|done].
Qed.

Lemma dict_comprehension_dom (xs : list A) :
  dom (dict_comprehension key value xs) = list_to_set (key <$> xs).
Proof.
  unfold dict_comprehension.
  by rewrite foldl_store_dom, dom_empty_L, (left_id_L ∅ (∪)).
Qed.

Lemma dict_comprehension_lookup_Some (xs : list A) k v :
  dict_comprehension key value xs !! k = Some v →
  ∃ x, x ∈ xs ∧ key x = k ∧ value x = v.
Proof.
  unfold dict_comprehension.
  intros [Hd|Hx]%foldl_store_lookup_Some; [|done].
  by rewrite lookup_empty in Hd.
Qed.

End dict_facts.

Lemma dict_display_dom {V} (items : list (string * V)) :
  dom (dict_display items) = list_to_set (items.*1).
Proof. apply (dict_comprehension_dom fst snd). Qed.

Lemma dict_contains_dom {V} (k : string) (d : gmap string V) :
  dict_contains k d = true ↔ k ∈ dom d.
Proof.
  unfold dict_contains. rewrite elem_of_dom.
  destruct (d !! k) as [v|].
  - split; [by exists v|done].
  - split; [done|by intros [v ?]].
Qed.

(** ** What one call does *)

Lemma select_llm_provider_run (provider_key : string) (g : globals) :
  select_llm_provider provider_key g =
    (provider_result (g_BASE_URLS g) provider_key, g).
Proof.
  unfold select_llm_provider, provider_result, mbind, Py_bind, py_bind, load.
  unfold dict_contains, dict_getitem.
  by destruct (_ !! lower provider_key).
Qed.

Lemma list_getitem_0 {V} (l : list V) (g : globals) :
  list_getitem l 0 g =
    (match l with
     | v :: _ => Return v
     | [] => Raise (IndexError "list index out of range")
     end, g).
Proof.
  unfold list_getitem. destruct l as [|v l]; [done|].
  cbn [length]. rewrite Nat2Z.inj_succ.
  change (0 <? 0) with false. cbn [orb].
  destruct (Z.leb_spec (Z.succ (Z.of_nat (length l))) 0) as [Hle|_]; [lia|done].
Qed.

Lemma select_shallow_thinking_agent_run (provider_key : string) (g : globals) :
  select_shallow_thinking_agent provider_key g =
    (agent_result ShallowAgent (g_SHALLOW_AGENT_OPTIONS g) provider_key, g).
Proof.
  unfold select_shallow_thinking_agent, agent_result, try_except_KeyError.
  unfold mbind, Py_bind, py_bind, load, dict_getitem.
  destruct (_ !! lower provider_key) as [models|]; [|done].
  unfold mret, Py_ret, py_ret. rewrite list_getitem_0. by destruct models.
Qed.

Lemma select_deep_thinking_agent_run (provider_key : string) (g : globals) :
  select_deep_thinking_agent provider_key g =
    (agent_result DeepAgent (g_DEEP_AGENT_OPTIONS g) provider_key, g).
Proof.
  unfold select_deep_thinking_agent, agent_result, try_except_KeyError.
  unfold mbind, Py_bind, py_bind, load, dict_getitem.
  destruct (_ !! lower provider_key) as [models|]; [|done].
  unfold mret, Py_ret, py_ret. rewrite list_getitem_0. by destruct models.
Qed.

(** ** The tables *)

Lemma dict_display_lookup_Some {V} (items : list (string * V)) k v :
  dict_display items !! k = Some v → (k, v) ∈ items.
Proof.
  intros ([k' v'] & Hx & Hk & Hv)%(dict_comprehension_lookup_Some fst snd).
  cbn in Hk, Hv. by subst.
Qed.

Lemma SHALLOW_AGENT_OPTIONS_models key models :
  SHALLOW_AGENT_OPTIONS !! key = Some models → length models = 1%nat.
Proof. intros H%dict_display_lookup_Some. by list_cases H. Qed.

Lemma DEEP_AGENT_OPTIONS_models key models :
  DEEP_AGENT_OPTIONS !! key = Some models → length models = 1%nat.
Proof. intros H%dict_display_lookup_Some. by list_cases H. Qed.

Lemma searched_keys_supported (o : operation) : searched_keys o = supported_keys.
Proof.
  destruct o; unfold searched_keys, SHALLOW_AGENT_OPTIONS, DEEP_AGENT_OPTIONS;
    rewrite ?dict_display_dom; cbn; unfold supported_keys; set_solver.
Qed.

Lemma call_select (o : operation) (k : string) :
  call (select o k) =
    match resolve o (lower k) with
    | Some v => Return v
    | None => Raise (UnknownKey o k)
    end.
Proof.
  unfold call, module_globals. destruct o; cbn [select resolve].
  - by rewrite select_llm_provider_run.
  - rewrite select_shallow_thinking_agent_run. cbn [fst g_SHALLOW_AGENT_OPTIONS].
    unfold agent_result.
    destruct (SHALLOW_AGENT_OPTIONS !! lower k) as [[|model models]|] eqn:E;
      [|done..].
    by apply SHALLOW_AGENT_OPTIONS_models in E.
  - rewrite select_deep_thinking_agent_run. cbn [fst g_DEEP_AGENT_OPTIONS].
    unfold agent_result.
    destruct (DEEP_AGENT_OPTIONS !! lower k) as [[|model models]|] eqn:E;
      [|done..].
    by apply DEEP_AGENT_OPTIONS_models in E.
Qed.

Lemma resolve_is_Some (o : operation) (key : string) :
  is_Some (resolve o key) ↔ key ∈ searched_keys o.
Proof.
  destruct o; cbn [resolve searched_keys].
  - by rewrite <- (dict_comprehension_dom lower (λ name, name)), elem_of_dom.
  - rewrite elem_of_dom. split.
    + intros [v Hv]. destruct (SHALLOW_AGENT_OPTIONS !! key); [by eexists|done].
    + intros [[|m l] Hl]; rewrite Hl; [|by eexists].
      by apply SHALLOW_AGENT_OPTIONS_models in Hl.
  - rewrite elem_of_dom. split.
    + intros [v Hv]. destruct (DEEP_AGENT_OPTIONS !! key); [by eexists|done].
    + intros [[|m l] Hl]; rewrite Hl; [|by eexists].
      by apply DEEP_AGENT_OPTIONS_models in Hl.
Qed.

Lemma append_cancel_l (p a b : string) : p +:+ a = p +:+ b → a = b.
Proof. induction p as [|c p IH]; cbn; [done|]. intros [=]. by apply IH. Qed.

Lemma UnknownKey_inj (o : operation) (k k' : string) :
  UnknownKey o k' = UnknownKey o k → k' = k.
Proof. destruct o; intros [= H%append_cancel_l]; done. Qed.

Lemma supported_key_lower (key : string) :
  key ∈ supported_keys → lower key = key.
Proof.
  unfold supported_keys. rewrite !elem_of_union, !elem_of_singleton.
  by intros [[->| ->]| ->].
Qed.

(** ** The claims *)

(** C1: for each supported provider key (openai, anthropic, deepseek)
    spelled in any letter-casing, [select_llm_provider] returns the
    canonical display name, an entry of [BASE_URLS]: "OpenAI", "Anthropic",
    "DeepSeek". *)
Theorem select_llm_provider_any_casing (k key name : string) :
  (key, name) ∈ provider_names →
  recased k key = true →
  name ∈ BASE_URLS ∧ call (select_llm_provider k) = Return name.
Proof.
  intros Hin Hk%recased_lower.
  rewrite (call_select ProviderName), Hk.
  list_cases Hin; (split; [|reflexivity]); unfold BASE_URLS.
  - by left.
  - by right; left.
  - by right; right; left.
Qed.

Lemma select_llm_provider_any_casing_witness :
  "OpenAI" ∈ BASE_URLS ∧ call (select_llm_provider "OPENAI") = Return "OpenAI".
Proof.
  apply (select_llm_provider_any_casing "OPENAI" "openai" "OpenAI").
  - by left.
  - reflexivity.
Defined.

(** C2: for each supported provider key spelled in any letter-casing,
    [select_shallow_thinking_agent] returns the first entry of the
    provider's sequence in [SHALLOW_AGENT_OPTIONS] and
    [select_deep_thinking_agent] the first entry of its sequence in
    [DEEP_AGENT_OPTIONS]: "gpt-4o-mini" / "gpt-4o" for openai,
    "claude-3-haiku" / "claude-3-opus" for anthropic, "deepseek-chat" /
    "deepseek-reasoner" for deepseek. *)
Theorem select_agents_first_entry (k key shallow deep : string) :
  (key, (shallow, deep)) ∈ default_agents →
  recased k key = true →
  (SHALLOW_AGENT_OPTIONS !! key ≫= head = Some shallow
   ∧ call (select_shallow_thinking_agent k) = Return shallow)
  ∧ (DEEP_AGENT_OPTIONS !! key ≫= head = Some deep
     ∧ call (select_deep_thinking_agent k) = Return deep).
Proof.
  intros Hin Hk%recased_lower.
  rewrite (call_select ShallowAgent), (call_select DeepAgent), Hk.
  by list_cases Hin.
Qed.

Lemma select_agents_first_entry_witness :
  (SHALLOW_AGENT_OPTIONS !! "anthropic" ≫= head = Some "claude-3-haiku"
   ∧ call (select_shallow_thinking_agent "AnThRoPiC") = Return "claude-3-haiku")
  ∧ (DEEP_AGENT_OPTIONS !! "anthropic" ≫= head = Some "claude-3-opus"
     ∧ call (select_deep_thinking_agent "AnThRoPiC") = Return "claude-3-opus").
Proof.
  apply (select_agents_first_entry "AnThRoPiC" "anthropic").
  - by right; left.
  - reflexivity.
Defined.

(** C3: when the lowercased input is not a key of the table an accessor
    searches, the accessor raises its UnknownKey failure and returns
    nothing; the failure carries the input as it was passed, so that no
    other input produces the same failure. *)
Theorem unknown_key_raises (o : operation) (k : string) :
  lower k ∉ searched_keys o →
  call (select o k) = Raise (UnknownKey o k)
  ∧ ¬ returns (call (select o k))
  ∧ ∀ k', call (select o k') = Raise (UnknownKey o k) → k' = k.
Proof.
  intros Hk. rewrite <- resolve_is_Some, <- eq_None_not_Some in Hk.
  rewrite call_select, Hk. split; [done|]. split.
  - by intros [v Hv].
  - intros k'. rewrite call_select. destruct (resolve o (lower k')); [done|].
    intros [= H]. by apply UnknownKey_inj in H.
Qed.

Lemma unknown_key_raises_witness :
  call (select_shallow_thinking_agent "Mistral") =
    Raise (KeyError "Unknown provider for shallow agent: Mistral"
                    (Some (KeyError "mistral" None))).
Proof.
  apply (unknown_key_raises ShallowAgent "Mistral").
  rewrite searched_keys_supported. unfold supported_keys.
  rewrite !elem_of_union, !elem_of_singleton. by intros [[?|?]|?].
Defined.

(** C4: case-insensitivity is total. On any input [k] an accessor has the
    same outcome as on the lowercased [k]: both calls return the same value,
    or both raise the UnknownKey failure (each for its own input). In
    particular a mixed-case spelling of a supported key resolves exactly as
    the lowercase key does. *)
Theorem case_insensitivity_total (o : operation) (k : string) :
  ((∃ v, call (select o k) = Return v ∧ call (select o (lower k)) = Return v)
   ∨ (call (select o k) = Raise (UnknownKey o k)
      ∧ call (select o (lower k)) = Raise (UnknownKey o (lower k))))
  ∧ (∀ key, key ∈ supported_keys → recased k key = true →
       returns (call (select o key)) ∧ call (select o k) = call (select o key)).
Proof.
  split.
  - rewrite !call_select, lower_idemp.
    destruct (resolve o (lower k)) as [v|]; [left; by exists v|by right].
  - intros key Hkey Hk%recased_lower.
    rewrite !call_select, Hk, (supported_key_lower key Hkey).
    rewrite <- (searched_keys_supported o), <- resolve_is_Some in Hkey.
    destruct Hkey as [v ->]. split; [by exists v|done].
Qed.

Lemma case_insensitivity_total_witness :
  returns (call (select_deep_thinking_agent "deepseek"))
  ∧ call (select_deep_thinking_agent "DeepSeek") =
      call (select_deep_thinking_agent "deepseek").
Proof.
  apply (case_insensitivity_total DeepAgent "DeepSeek").
  - unfold supported_keys. rewrite !elem_of_union, !elem_of_singleton. by right.
  - reflexivity.
Defined.

(** C5: each accessor is total over strings. Every call either returns a
    string or raises the UnknownKey failure; in particular no call raises
    the [IndexError] of indexing an empty model sequence. *)
Theorem select_total (o : operation) (k : string) :
  (∃ v : string, call (select o k) = Return v)
  ∨ call (select o k) = Raise (UnknownKey o k).
Proof.
  rewrite call_select.
  destruct (resolve o (lower k)) as [v|]; [left; by exists v|by right].
Qed.

(** C6: the names of [BASE_URLS] are pairwise distinct, and the key set of
    [SHALLOW_AGENT_OPTIONS] and that of [DEEP_AGENT_OPTIONS] are each the
    set of the lowercased names of [BASE_URLS]. *)
Theorem tables_invariant :
  NoDup BASE_URLS
  ∧ dom SHALLOW_AGENT_OPTIONS = list_to_set (lower <$> BASE_URLS)
  ∧ dom DEEP_AGENT_OPTIONS = list_to_set (lower <$> BASE_URLS).
Proof.
  change (dom SHALLOW_AGENT_OPTIONS) with (searched_keys ShallowAgent).
  change (dom DEEP_AGENT_OPTIONS) with (searched_keys DeepAgent).
  change (list_to_set (lower <$> BASE_URLS)) with (searched_keys ProviderName).
  rewrite !searched_keys_supported.
  split; [|done]. compute_done.
Qed.

(** C7: each accessor is deterministic and repeatable. Whatever the global
    names are bound to, a call leaves them as they were, and a second call
    with the same argument, made after the first, has the outcome of the
    first: the same value or the same failure. *)
Theorem select_repeatable (o : operation) (k : string) (g : globals) :
  (select o k g).2 = g
  ∧ twice (select o k) g = ((select o k g).1, (select o k g).1, g).
Proof.
  assert ((select o k g).2 = g) as Hg.
  { destruct o; cbn [select].
    - by rewrite select_llm_provider_run.
    - by rewrite select_shallow_thinking_agent_run.
    - by rewrite select_deep_thinking_agent_run. }
  split; [done|]. unfold twice.
  destruct (select o k g) as [r1 g1] eqn:E1. cbn [fst snd] in *. subst g1.
  by rewrite E1.
Qed.

(** C8: every model sequence stored in [SHALLOW_AGENT_OPTIONS] or in
    [DEEP_AGENT_OPTIONS] has exactly one element, hence is not empty, and
    index 0 of it is defined. *)
Theorem model_sequences_nonempty (key : string) (models : list string) :
  SHALLOW_AGENT_OPTIONS !! key = Some models
  ∨ DEEP_AGENT_OPTIONS !! key = Some models →
  length models = 1%nat
  ∧ models ≠ []
  ∧ ∃ model, ∀ g, list_getitem models 0 g = (Return model, g).
Proof.
  intros H.
  assert (length models = 1%nat) as Hlen.
  { destruct H as [H|H];
      [by apply SHALLOW_AGENT_OPTIONS_models in H
      |by apply DEEP_AGENT_OPTIONS_models in H]. }
  destruct models as [|model models]; [done|].
  split; [done|]. split; [done|].
  exists model. intros g. by rewrite list_getitem_0.
Qed.

Lemma model_sequences_nonempty_witness :
  length ["gpt-4o-mini"] = 1%nat
  ∧ ["gpt-4o-mini"] ≠ []
  ∧ ∃ model, ∀ g, list_getitem ["gpt-4o-mini"] 0 g = (Return model, g).
Proof.
  apply (model_sequences_nonempty "openai" ["gpt-4o-mini"]).
  left. reflexivity.
Defined.

(** C9: whenever [select_llm_provider] returns a name for an input [k],
    the lowercased name is the lowercased [k]. This holds whatever names
    [BASE_URLS] is bound to; the returned name is one of them. *)
Theorem select_llm_provider_round_trip (g : globals) (k v : string) :
  (select_llm_provider k g).1 = Return v →
  v ∈ g_BASE_URLS g ∧ lower v = lower k.
Proof.
  rewrite select_llm_provider_run. cbn [fst]. unfold provider_result.
  destruct (_ !! lower k) as [name|] eqn:E; [|done].
  intros [= ->].
  apply dict_comprehension_lookup_Some in E as (x & Hx & Hk & ->).
  done.
Qed.

Lemma select_llm_provider_round_trip_witness :
  "DeepSeek" ∈ g_BASE_URLS module_globals ∧ lower "DeepSeek" = lower "DEEPseek".
Proof.
  apply (select_llm_provider_round_trip module_globals "DEEPseek" "DeepSeek").
  reflexivity.
Defined.

(** C10: the three accessors succeed on the same inputs. For every input,
    [select_llm_provider] returns iff [select_shallow_thinking_agent]
    returns iff [select_deep_thinking_agent] returns, and each of them
    returns exactly when the lowercased input is one of the supported keys
    and raises its UnknownKey failure otherwise. *)
Theorem common_success_domain (k : string) :
  (returns (call (select_llm_provider k))
   ↔ returns (call (select_shallow_thinking_agent k)))
  ∧ (returns (call (select_shallow_thinking_agent k))
     ↔ returns (call (select_deep_thinking_agent k)))
  ∧ ∀ o, (returns (call (select o k)) ↔ lower k ∈ supported_keys)
         ∧ (call (select o k) = Raise (UnknownKey o k) ↔ lower k ∉ supported_keys).
Proof.
  assert (∀ o, returns (call (select o k)) ↔ lower k ∈ supported_keys) as Hdom.
  { intros o.
    rewrite <- (searched_keys_supported o), <- resolve_is_Some, call_select.
    destruct (resolve o (lower k)) as [v|]; split.
    - by exists v.
    - by exists v.
    - by intros [v Hv].
    - by intros [v Hv]. }
  split; [|split].
  - by rewrite (Hdom ProviderName), (Hdom ShallowAgent).
  - by rewrite (Hdom ShallowAgent), (Hdom DeepAgent).
  - intros o. split; [done|]. rewrite <- (Hdom o), call_select.
    destruct (resolve o (lower k)) as [v|]; split.
    + done.
    + intros Hn. destruct Hn. by exists v.
    + by intros _ [v Hv].
    + done.
Qed.

Lemma common_success_domain_witness :
  returns (call (select_llm_provider "OpenAI"))
  ↔ returns (call (select_shallow_thinking_agent "OpenAI")).
Proof. apply (common_success_domain "OpenAI"). Defined.

(** ** Any binding of the global names *)

(** The accessors read [BASE_URLS], [SHALLOW_AGENT_OPTIONS] and
    [DEEP_AGENT_OPTIONS] when they are called. What follows holds for every
    binding [g] of these names, not only for the module as loaded. *)

Section last_stored.
Context {A V : Type} (key : A → string) (value : A → V).

(** A key holds what the last item stored under it brought. *)
Lemma foldl_store_lookup_last (xs : list A) (d : gmap string V) (k : string) :
  foldl (λ d x, <[key x := value x]> d) d xs !! k =
    match last (filter (λ x, key x = k) xs) with
    | Some x => Some (value x)
    | None => d !! k
    end.
Proof.
  revert d. induction xs as [|x xs IH]; intros d; cbn [foldl]; [done|].
  rewrite IH. destruct (decide (key x = k)) as [Hk|Hk].
  - rewrite filter_cons_True, last_cons by done.
    destruct (last _); [done|]. by rewrite <- Hk, lookup_insert_eq.
  - rewrite filter_cons_False by done.
    destruct (last _); [done|]. by rewrite lookup_insert_ne.
Qed.

Lemma dict_comprehension_lookup_last (xs : list A) (k : string) :
  dict_comprehension key value xs !! k =
    value <$> last (filter (λ x, key x = k) xs).
Proof.
  unfold dict_comprehension. rewrite foldl_store_lookup_last.
  by destruct (last _).
Qed.

End last_stored.

Lemma select_run (o : operation) (k : string) (g : globals) :
  select o k g =
    (match o with
     | ProviderName => provider_result (g_BASE_URLS g) k
     | ShallowAgent => agent_result ShallowAgent (g_SHALLOW_AGENT_OPTIONS g) k
     | DeepAgent => agent_result DeepAgent (g_DEEP_AGENT_OPTIONS g) k
     end, g).
Proof.
  destruct o; cbn [select].
  - apply select_llm_provider_run.
  - apply select_shallow_thinking_agent_run.
  - apply select_deep_thinking_agent_run.
Qed.

Lemma select_agent_run (t : tier) (k : string) (g : globals) :
  select_agent t k g = (agent_result (tier_operation t) (agent_options t g) k, g).
Proof.
  destruct t; cbn [select_agent tier_operation agent_options].
  - apply select_shallow_thinking_agent_run.
  - apply select_deep_thinking_agent_run.
Qed.

Lemma select_agent_select (t : tier) : select_agent t = select (tier_operation t).
Proof. by destruct t. Qed.

(** A [KeyError] that leaves an accessor is its UnknownKey failure. *)
Lemma select_KeyError (o : operation) (k : string) (g : globals) arg cause :
  (select o k g).1 = Raise (KeyError arg cause) →
  KeyError arg cause = UnknownKey o k.
Proof.
  rewrite select_run. cbn [fst].
  destruct o; unfold provider_result, agent_result;
    destruct (_ !! lower k) as [v|]; try destruct v; congruence.
Qed.

Lemma UnknownKey_operation_inj (o o' : operation) (k k' : string) :
  UnknownKey o k = UnknownKey o' k' → o = o' ∧ k = k'.
Proof.
  destruct o, o'; cbn; intros H; try discriminate H.
  all: split; [done|]; injection H; intros; by eapply append_cancel_l.
Qed.

(** X1: whatever names [BASE_URLS] holds, [select_llm_provider] returns the
    last name of the list whose lowercase form is the lowercased input, and
    raises its [KeyError] exactly when no name matches. Of two names that
    differ in case only, the later one shadows the earlier. *)
Theorem select_llm_provider_last_match (g : globals) (k : string) :
  (select_llm_provider k g).1 =
    match last (filter (λ name, lower name = lower k) (g_BASE_URLS g)) with
    | Some name => Return name
    | None => Raise (KeyError ("Unknown LLM provider: " +:+ k) None)
    end.
Proof.
  rewrite select_llm_provider_run. cbn [fst]. unfold provider_result.
  rewrite dict_comprehension_lookup_last. by destruct (last _).
Qed.

(** X2: an agent accessor reads one thing, the first model of the sequence
    stored under the lowercased input. Two bindings that agree on it (the
    key absent in both, an empty sequence in both, or the same first model)
    give the same outcome: later models of the sequence, the other entries,
    the other table and [BASE_URLS] have no influence. *)
Theorem select_agent_first_model_only (t : tier) (g g' : globals) (k : string) :
  head <$> (agent_options t g !! lower k) = head <$> (agent_options t g' !! lower k) →
  (select_agent t k g).1 = (select_agent t k g').1.
Proof.
  rewrite !select_agent_run. cbn [fst]. unfold agent_result.
  destruct (agent_options t g !! lower k) as [[|m l]|],
    (agent_options t g' !! lower k) as [[|m' l']|]; cbn; intros [=]; by subst.
Qed.

Lemma select_agent_first_model_only_witness :
  (select_shallow_thinking_agent "OpenAI" module_globals).1 =
  (select_shallow_thinking_agent "OpenAI"
     {| g_BASE_URLS := [];
        g_SHALLOW_AGENT_OPTIONS :=
          dict_display [("openai", ["gpt-4o-mini"; "gpt-4.1-nano"]); ("mistral", [])];
        g_DEEP_AGENT_OPTIONS := ∅ |}).1.
Proof.
  apply (select_agent_first_model_only Shallow). reflexivity.
Defined.

(** X3: when the table stores an empty sequence under the lowercased
    input, the agent accessor raises [IndexError]: the handler takes
    [KeyError] only, so the failure is not turned into the accessor's
    UnknownKey [KeyError]. *)
Theorem select_agent_empty_sequence (t : tier) (g : globals) (k : string) :
  agent_options t g !! lower k = Some [] →
  (select_agent t k g).1 = Raise (IndexError "list index out of range").
Proof.
  intros H. rewrite select_agent_run. cbn [fst]. unfold agent_result.
  by rewrite H.
Qed.

Lemma select_agent_empty_sequence_witness :
  (select_deep_thinking_agent "Mistral"
     {| g_BASE_URLS := BASE_URLS;
        g_SHALLOW_AGENT_OPTIONS := SHALLOW_AGENT_OPTIONS;
        g_DEEP_AGENT_OPTIONS := <["mistral" := []]> DEEP_AGENT_OPTIONS |}).1
  = Raise (IndexError "list index out of range").
Proof.
  apply (select_agent_empty_sequence Deep). reflexivity.
Defined.

(** X4: an agent accessor never reads an entry whose key is not in
    lowercase form. Two tables that agree on every key that is its own
    lowercase form give the same outcome on every input, so an entry stored
    under a key such as "OpenAI" can be added or removed without effect. *)
Theorem select_agent_lowercase_keys_only (t : tier) (g g' : globals) (k : string) :
  (∀ key, lower key = key → agent_options t g !! key = agent_options t g' !! key) →
  (select_agent t k g).1 = (select_agent t k g').1.
Proof.
  intros H. rewrite !select_agent_run. cbn [fst]. unfold agent_result.
  by rewrite (H (lower k) (lower_idemp k)).
Qed.

Lemma select_agent_lowercase_keys_only_witness :
  (select_shallow_thinking_agent "OpenAI" module_globals).1 =
  (select_shallow_thinking_agent "OpenAI"
     {| g_BASE_URLS := BASE_URLS;
        g_SHALLOW_AGENT_OPTIONS := <["OpenAI" := ["o3"]]> SHALLOW_AGENT_OPTIONS;
        g_DEEP_AGENT_OPTIONS := DEEP_AGENT_OPTIONS |}).1.
Proof.
  apply (select_agent_lowercase_keys_only Shallow).
  intros key Hkey. cbn [agent_options g_SHALLOW_AGENT_OPTIONS module_globals].
  symmetry. apply lookup_insert_ne. intros <-. discriminate Hkey.
Defined.

(** X5: a [KeyError] raised by an accessor tells which accessor raised it
    and for which input. If two calls, of any accessors on any inputs in
    any bindings, raise the same [KeyError], then they are calls of the
    same accessor with the same input. *)
Theorem KeyError_identifies_call (o o' : operation) (k k' : string)
    (g g' : globals) (arg : string) (cause : option exn) :
  (select o k g).1 = Raise (KeyError arg cause) →
  (select o' k' g').1 = Raise (KeyError arg cause) →
  o = o' ∧ k = k'.
Proof.
  intros H%select_KeyError H'%select_KeyError.
  apply UnknownKey_operation_inj. congruence.
Qed.

Lemma KeyError_identifies_call_witness :
  ShallowAgent = ShallowAgent ∧ "Mistral" = "Mistral".
Proof.
  apply (KeyError_identifies_call ShallowAgent ShallowAgent "Mistral" "Mistral"
           module_globals
           {| g_BASE_URLS := []; g_SHALLOW_AGENT_OPTIONS := ∅;
              g_DEEP_AGENT_OPTIONS := ∅ |}
           "Unknown provider for shallow agent: Mistral"
           (Some (KeyError "mistral" None))).
  - reflexivity.
  - reflexivity.
Defined.

(** X6: a name returned by [select_llm_provider] is itself an accepted
    input and resolves to itself, whatever names [BASE_URLS] holds. *)
Theorem select_llm_provider_idempotent (g : globals) (k v : string) :
  (select_llm_provider k g).1 = Return v →
  (select_llm_provider v g).1 = Return v.
Proof.
  rewrite !select_llm_provider_run. cbn [fst]. unfold provider_result.
  destruct (_ !! lower k) as [name|] eqn:E; [|done].
  intros [= ->].
  pose proof E as (x & _ & Hk & ->)%dict_comprehension_lookup_Some.
  by rewrite Hk, E.
Qed.

Lemma select_llm_provider_idempotent_witness :
  (select_llm_provider "Anthropic" module_globals).1 = Return "Anthropic".
Proof.
  apply (select_llm_provider_idempotent module_globals "ANTHROPIC").
  reflexivity.
Defined.

(** X7: the accessors compose. In the module as loaded, when
    [select_llm_provider] returns a name for an input, each accessor called
    with that name has the outcome it has on the input itself. *)
Theorem canonical_name_resolves_like_key (o : operation) (k v : string) :
  call (select_llm_provider k) = Return v →
  call (select o v) = call (select o k).
Proof.
  intros Hv.
  assert (lower v = lower k ∧ lower k ∈ supported_keys) as [Hlower Hk].
  { rewrite (call_select ProviderName) in Hv.
    rewrite <- (searched_keys_supported ProviderName), <- resolve_is_Some.
    destruct (resolve ProviderName (lower k)) as [name|] eqn:E; [|done].
    injection Hv as ->. split; [|by exists v].
    by apply dict_comprehension_lookup_Some in E as (x & _ & Hx & ->). }
  rewrite !call_select, Hlower.
  rewrite <- (searched_keys_supported o), <- resolve_is_Some in Hk.
  by destruct Hk as [w ->].
Qed.

Lemma canonical_name_resolves_like_key_witness :
  call (select_deep_thinking_agent "DeepSeek") =
  call (select_deep_thinking_agent "deepSEEK").
Proof.
  apply (canonical_name_resolves_like_key DeepAgent "deepSEEK" "DeepSeek").
  reflexivity.
Defined.





(** X9: nothing ties the provider list to the agent tables. For a name
    listed in [BASE_URLS] whose lowercase form is not a key of an agent
    table, [select_llm_provider] returns a name while that agent accessor
    raises its UnknownKey failure on the same input. *)
Theorem listed_provider_without_agent (t : tier) (g : globals) (name : string) :
  name ∈ g_BASE_URLS g →
  lower name ∉ dom (agent_options t g) →
  returns (select_llm_provider name g).1
  ∧ (select_agent t name g).1 = Raise (UnknownKey (tier_operation t) name).
Proof.
  intros Hname Hkey. split.
  - rewrite select_llm_provider_run. cbn [fst]. unfold provider_result.
    assert (lower name ∈ dom (dict_comprehension lower (λ n, n) (g_BASE_URLS g)))
      as [v Hv]%elem_of_dom.
    { rewrite dict_comprehension_dom, elem_of_list_to_set.
      by apply list_elem_of_fmap_2. }
    rewrite Hv. by exists v.
  - rewrite select_agent_run. cbn [fst]. unfold agent_result.
    by rewrite (not_elem_of_dom_1 _ _ Hkey).
Qed.

Lemma listed_provider_without_agent_witness :
  returns (select_llm_provider "Mistral"
             {| g_BASE_URLS := BASE_URLS ++ ["Mistral"];
                g_SHALLOW_AGENT_OPTIONS := SHALLOW_AGENT_OPTIONS;
                g_DEEP_AGENT_OPTIONS := DEEP_AGENT_OPTIONS |}).1
  ∧ (select_shallow_thinking_agent "Mistral"
       {| g_BASE_URLS := BASE_URLS ++ ["Mistral"];
          g_SHALLOW_AGENT_OPTIONS := SHALLOW_AGENT_OPTIONS;
          g_DEEP_AGENT_OPTIONS := DEEP_AGENT_OPTIONS |}).1
    = Raise (KeyError "Unknown provider for shallow agent: Mistral"
                      (Some (KeyError "mistral" None))).
Proof.
  apply (listed_provider_without_agent Shallow).
  - cbn. rewrite !elem_of_cons. auto.
  - cbn [agent_options g_SHALLOW_AGENT_OPTIONS].
    change (dom SHALLOW_AGENT_OPTIONS) with (searched_keys ShallowAgent).
    rewrite searched_keys_supported. unfold supported_keys.
    rewrite !elem_of_union, !elem_of_singleton. by intros [[?|?]|?].
Defined.

(** X10: case-insensitivity does not depend on what the tables hold. In any
    binding, two inputs with the same lowercase form have the same outcome,
    except that a [KeyError] names the input of its own call: they return
    the same value, or raise the same [IndexError], or each raises its
    UnknownKey failure. *)
Theorem same_lowercase_same_outcome (o : operation) (g : globals) (k k' : string) :
  lower k = lower k' →
  (select o k' g).1 =
    match (select o k g).1 with
    | Raise (KeyError _ _) => Raise (UnknownKey o k')
    | r => r
    end.
Proof.
  intros H. rewrite !select_run. cbn [fst].
  destruct o; unfold provider_result, agent_result; rewrite <- H;
    destruct (_ !! lower k) as [v|]; try destruct v; try done.
  all: unfold UnknownKey; by rewrite <- H.
Qed.

Lemma same_lowercase_same_outcome_witness :
  (select_llm_provider "oPENai" module_globals).1 =
    match (select_llm_provider "OpenAI" module_globals).1 with
    | Raise (KeyError _ _) => Raise (UnknownKey ProviderName "oPENai")
    | r => r
    end.
Proof.
  apply (same_lowercase_same_outcome ProviderName). reflexivity.
Defined.

(** ** Sample calls *)

Example lower_OpenAI : lower "OpenAI" = "openai".
Proof. reflexivity. Qed.

Example lower_latin1 : lower (String (chr 201) "COLE") = String (chr 233) "cole".
Proof. reflexivity. Qed.

Example select_llm_provider_OPENAI :
  call (select_llm_provider "OPENAI") = Return "OpenAI".
Proof. reflexivity. Qed.

Example select_llm_provider_mistral :
  call (select_llm_provider "Mistral") =
    Raise (KeyError "Unknown LLM provider: Mistral" None).
Proof. reflexivity. Qed.

Example select_deep_thinking_agent_DeepSeek :
  call (select_deep_thinking_agent "DeepSeek") = Return "deepseek-reasoner".
Proof. reflexivity. Qed.

(** The spellings of a supported key are the inputs that lowercase to it. *)
Example recased_deepseek (k : string) :
  recased k "deepseek" = true ↔ lower k = "deepseek".
Proof. by apply recased_iff_lower. Qed.

(** With a table that stores an empty sequence the accessor would let the
    [IndexError] through: the handler takes [KeyError] only. *)
Example empty_sequence_IndexError :
  (select_shallow_thinking_agent "OpenAI"
     {| g_BASE_URLS := BASE_URLS;
        g_SHALLOW_AGENT_OPTIONS := dict_display [("openai", [])];
        g_DEEP_AGENT_OPTIONS := DEEP_AGENT_OPTIONS |}).1
  = Raise (IndexError "list index out of range").
Proof. reflexivity. Qed.
